(** * jeremym-fastapi-example: configuration and external handlers

    A shallow embedding of [src/jeremymfastapiexample/config.py] and
    [src/jeremymfastapiexample/handlers/external.py].

    Handlers are [async def] functions that log, perform one outbound HTTP
    request and either return a value or raise.  They are embedded in a small
    state-and-exception monad over a [World] that records the observable
    effects (log lines, outbound requests, clients opened).  What the
    handlers call but the repository does not define (PyYAML, felis, the
    httpx transport, package metadata, the JSON renderer) is gathered in the
    class [Libraries]; every property is proved for all its instances. *)

From Stdlib Require Import String Ascii List ZArith Bool Lia DecimalString.
Import ListNotations.
Local Open Scope string_scope.
Local Open Scope Z_scope.

Set Implicit Arguments.

(** ** Python values *)

(** The generic structure produced by [yaml.safe_load] and consumed by the
    JSON response renderer.  Mapping keys are values, as in Python: a YAML
    mapping may be keyed by integers.  [PyOther] stands for the remaining
    scalars a YAML document can denote (floats, timestamps, binary), kept by
    their printed form. *)
#[warnings="-register-all"] Inductive pyval : Type :=
| PyNone
| PyBool (b : bool)
| PyInt (z : Z)
| PyStr (s : string)
| PyList (items : list pyval)
| PyDict (entries : list (pyval * pyval))
| PyOther (repr : string).

(** The line feed written [\n] in the source's f-strings. *)
Definition LF : string := String (ascii_of_nat 10) EmptyString.

(** ** Configuration ([config.py]) *)

Module Config.

(** [safir.logging.Profile] and [safir.logging.LogLevel]. *)
Inductive Profile : Type := production | development.
Inductive LogLevel : Type := DEBUG | INFO | WARNING | ERROR | CRITICAL.

Record Config : Type := {
  name : string;
  path_prefix : string;
  profile : Profile;
  log_level : LogLevel
}.

(** [SettingsConfigDict(env_prefix=..., case_sensitive=False)] *)
Definition env_prefix : string := "JEREMYM_FASTAPI_EXAMPLE_".
Definition case_sensitive : bool := false.

(** The field defaults, first argument of each [Field(...)]. *)
Definition default_name : string := "jeremym-fastapi-example".
Definition default_path_prefix : string := "/jeremym-fastapi-example".
Definition default_profile : Profile := development.
Definition default_log_level : LogLevel := INFO.

(** The process environment, in the order [os.environ.items()] yields it. *)
Definition environ : Type := list (string * string).

Definition lower_ascii (c : ascii) : ascii :=
  let n := nat_of_ascii c in
  if (Nat.leb 65 n && Nat.leb n 90)%bool then ascii_of_nat (n + 32)%nat else c.

Fixpoint lower (s : string) : string :=
  match s with
  | EmptyString => EmptyString
  | String c r => String (lower_ascii c) (lower r)
  end.

Definition fold_case (s : string) : string :=
  if case_sensitive then s else lower s.

(** The dictionary of environment variables the settings source builds:
    every key case-folded; where two keys fold to the same name the later
    one replaces the earlier. *)
Fixpoint env_lookup (key : string) (env : environ) : option string :=
  match env with
  | [] => None
  | (k, v) :: rest =>
      match env_lookup key rest with
      | Some later => Some later
      | None => if String.eqb (fold_case k) key then Some v else None
      end
  end.

(** The value the environment supplies for a field, if any. *)
Definition field_env (env : environ) (field : string) : option string :=
  env_lookup (fold_case (env_prefix ++ field)) env.

(** Enumerations are validated by value. *)
Definition parse_Profile (s : string) : option Profile :=
  if String.eqb s "production" then Some production
  else if String.eqb s "development" then Some development
  else None.

Definition parse_LogLevel (s : string) : option LogLevel :=
  if String.eqb s "DEBUG" then Some DEBUG
  else if String.eqb s "INFO" then Some INFO
  else if String.eqb s "WARNING" then Some WARNING
  else if String.eqb s "ERROR" then Some ERROR
  else if String.eqb s "CRITICAL" then Some CRITICAL
  else None.

(** One field of the settings model: the environment's value validated by
    [parse], or the default when the environment is silent.  [None] is a
    validation failure. *)
Definition setting {A : Type} (env : environ) (field : string)
    (parse : string -> option A) (default : A) : option A :=
  match field_env env field with
  | Some raw => parse raw
  | None => Some default
  end.

(** A validation error lists the fields that failed. *)
Definition ValidationError : Type := list string.

Definition field_error {A : Type} (field : string) (r : option A) : list string :=
  match r with
  | Some _ => []
  | None => [field]
  end.

(** [Config()] : every field is read and validated; all failures are
    reported together. *)
Definition Config_init (env : environ) : ValidationError + Config :=
  let n := setting env "name" (@Some string) default_name in
  let p := setting env "path_prefix" (@Some string) default_path_prefix in
  let pr := setting env "profile" parse_Profile default_profile in
  let ll := setting env "log_level" parse_LogLevel default_log_level in
  match n, p, pr, ll with
  | Some n', Some p', Some pr', Some ll' =>
      inr {| name := n'; path_prefix := p'; profile := pr'; log_level := ll' |}
  | _, _, _, _ =>
      inl (field_error "name" n ++ field_error "path_prefix" p
           ++ field_error "profile" pr ++ field_error "log_level" ll)%list
  end.

End Config.

(** ** Effects: log, outbound requests, exceptions *)

(** The exceptions the handlers meet.  [HTTPException] is FastAPI's;
    [RequestError] is [httpx.RequestError] with its subclasses (connect and
    DNS failures, timeouts, protocol errors); [InvalidURL] is httpx's
    exception that is not a [RequestError]; [YAMLError] is PyYAML's;
    [ValidationError] is pydantic's, listing the offending fields.  The
    optional third argument of [HTTPException] is the [__cause__] set by
    [raise ... from e]. *)
#[warnings="-register-all"] Inductive exn : Type :=
| HTTPException (status_code : Z) (detail : string) (cause : option exn)
| RequestError (message : string)
| InvalidURL (message : string)
| YAMLError (message : string)
| ValidationError (fields : list string)
| TypeError (message : string).

Record LogEntry : Type := {
  level : string;
  event : string;
  fields : list (string * string)
}.

(** What a request leaves behind: the lines logged, the URLs fetched, and the
    HTTP clients created and still open. *)
Record World : Type := {
  log : list LogEntry;
  requests : list string;
  clients_created : nat;
  clients_open : nat
}.

Inductive outcome (A : Type) : Type :=
| Returned (a : A)
| Raised (e : exn).
Arguments Returned {A} a.
Arguments Raised {A} e.

Definition Eff (A : Type) : Type := World -> outcome A * World.

Definition ret {A : Type} (a : A) : Eff A := fun w => (Returned a, w).

Definition bind {A B : Type} (m : Eff A) (k : A -> Eff B) : Eff B :=
  fun w =>
    match m w with
    | (Returned a, w') => k a w'
    | (Raised e, w') => (Raised e, w')
    end.

Definition raise {A : Type} (e : exn) : Eff A := fun w => (Raised e, w).

(** [try: m except <clause>: ...] : [clause e] is [Some h] when the except
    clause matches [e]; an exception it does not match propagates. *)
Definition try_except {A : Type} (m : Eff A) (clause : exn -> option (Eff A)) : Eff A :=
  fun w =>
    match m w with
    | (Returned a, w') => (Returned a, w')
    | (Raised e, w') =>
        match clause e with
        | Some h => h w'
        | None => (Raised e, w')
        end
    end.

(** An expression that evaluates or raises without touching the world. *)
Definition lift {A : Type} (r : exn + A) : Eff A :=
  match r with
  | inl e => raise e
  | inr a => ret a
  end.

Declare Scope eff_scope.
Delimit Scope eff_scope with eff.
Notation "x <- m ;; k" := (bind m (fun x => k))
  (at level 61, m at next level, right associativity) : eff_scope.
Notation "m ;; k" := (bind m (fun _ => k))
  (at level 61, right associativity) : eff_scope.
Local Open Scope eff_scope.

(** *** structlog's bound logger *)

Record BoundLogger : Type := {
  logger_name : string;
  bound : list (string * string)
}.

(** [logger.info(event, **kw)] *)
Definition logger_info (logger : BoundLogger) (ev : string)
    (kw : list (string * string)) : Eff unit :=
  fun w =>
    (Returned tt,
     {| log := (log w ++ [{| level := "info"; event := ev; fields := (bound logger ++ kw)%list |}])%list;
        requests := requests w;
        clients_created := clients_created w;
        clients_open := clients_open w |}).

(** *** httpx *)

Module Httpx.

Record Response : Type := {
  status_code : Z;
  text : string
}.

(** A client is what its transport answers: a response, or an exception. *)
Record AsyncClient : Type := {
  transport : string -> exn + Response
}.

(** [await client.get(url)] *)
Definition get (client : AsyncClient) (url : string) : Eff Response :=
  fun w =>
    let w' := {| log := log w;
                 requests := (requests w ++ [url])%list;
                 clients_created := clients_created w;
                 clients_open := clients_open w |} in
    match transport client url with
    | inl e => (Raised e, w')
    | inr r => (Returned r, w')
    end.

(** [async with <client> as client: body] : the client is created and
    entered, and closed on exit whether the body returned or raised. *)
Definition async_with {A : Type} (client : AsyncClient)
    (body : AsyncClient -> Eff A) : Eff A :=
  fun w =>
    let entered := {| log := log w;
                      requests := requests w;
                      clients_created := S (clients_created w);
                      clients_open := S (clients_open w) |} in
    match body client entered with
    | (r, w') =>
        (r, {| log := log w';
               requests := requests w';
               clients_created := clients_created w';
               clients_open := Nat.pred (clients_open w') |})
    end.

(** [except httpx.RequestError] *)
Definition is_RequestError (e : exn) : bool :=
  match e with
  | RequestError _ => true
  | _ => false
  end.

End Httpx.

(** ** Libraries outside the repository *)

(** What the handlers call but the repository does not define.
    - [yaml_safe_load] is [yaml.safe_load]: the parsed structure, or the
      message of the [YAMLError] it raises.
    - [Schema] is [felis.datamodel.Schema]; [Schema_init] is its keyword
      constructor, answering the instance or the fields pydantic's
      [ValidationError] reports; [Schema_dump] is its JSON-mode dump by
      alias, every field included.
    - [httpx_AsyncClient] is the client [httpx.AsyncClient()] constructs.
    - [package_version] and the three that follow read the installed
      package's metadata.
    - [json_dumps] renders a response's content to the bytes sent. *)
Class Libraries : Type := {
  yaml_safe_load : string -> string + pyval;
  Schema : Type;
  Schema_init : list (string * pyval) -> list string + Schema;
  Schema_dump : Schema -> pyval;
  httpx_AsyncClient : Httpx.AsyncClient;
  package_version : string -> string;
  package_summary : string -> string;
  package_source_url : string -> string;
  package_homepage : string -> string;
  json_dumps : pyval -> string
}.

(** *** Keyword-argument calls *)

(** The keywords of a call [f( **data )]: every key must be a string. *)
Fixpoint keywords (entries : list (pyval * pyval)) : option (list (string * pyval)) :=
  match entries with
  | [] => Some []
  | (PyStr k, v) :: rest =>
      match keywords rest with
      | Some kw => Some ((k, v) :: kw)
      | None => None
      end
  | _ :: _ => None
  end.

(** The call [f( **data )] for whatever [data] the parser produced: Python raises
    [TypeError] unless [data] is a mapping with string keys. *)
Definition call_with_kwargs {A : Type} (f : list (string * pyval) -> exn + A)
    (data : pyval) : exn + A :=
  match data with
  | PyDict entries =>
      match keywords entries with
      | Some kw => f kw
      | None => inl (TypeError "keywords must be strings")
      end
  | _ => inl (TypeError "argument after ** must be a mapping")
  end.

(** ** Response models ([models.py], [safir.metadata]) *)

Module Models.

(** Modelled from the spec: [safir.metadata.Metadata] is not under src/.
    Section 3 gives Application Metadata five attributes, each a string:
    name, version, description, repository URL, documentation URL. *)
Record Metadata : Type := {
  name : string;
  version : string;
  description : string;
  repository_url : string;
  documentation_url : string
}.

(** Modelled from the spec: [jeremymfastapiexample.models.Index] is not
    under src/.  Section 4.1: a JSON object containing a single field
    [metadata] populated with the five Application Metadata attributes. *)
Record Index : Type := {
  metadata : Metadata
}.

Definition Metadata_dump (m : Metadata) : pyval :=
  PyDict [ (PyStr "name", PyStr (name m));
           (PyStr "version", PyStr (version m));
           (PyStr "description", PyStr (description m));
           (PyStr "repository_url", PyStr (repository_url m));
           (PyStr "documentation_url", PyStr (documentation_url m)) ].

Definition Index_dump (i : Index) : pyval :=
  PyDict [ (PyStr "metadata", Metadata_dump (metadata i)) ].

(** Modelled from the spec: [safir.metadata.get_metadata] is not under
    src/.  Sections 3 and 8: the metadata is built from static package
    information, and its name is the application name it is given. *)
Definition get_metadata `{Libraries} (package_name application_name : string) : Metadata :=
  {| name := application_name;
     version := package_version package_name;
     description := package_summary package_name;
     repository_url := package_source_url package_name;
     documentation_url := package_homepage package_name |}.

End Models.

(** ** The framework around a handler (FastAPI) *)

Module FastAPI.

Inductive Body : Type :=
| JSON (content : pyval)
| PlainText (s : string).

Record HTTPResponse : Type := {
  status : Z;
  body : Body
}.

(** What a [@router.get(path, response_model=..., ...)] decorator records:
    the path, how the response model dumps the handler's return value, and
    [response_model_exclude_none], [False] unless the decorator sets it. *)
Record Route (A : Type) : Type := {
  path : string;
  response_model_dump : A -> pyval;
  response_model_exclude_none : bool
}.

(** Dumping with [exclude_none=True]: fields holding [None] are left out,
    at every depth. *)
Fixpoint exclude_none (v : pyval) : pyval :=
  match v with
  | PyList items => PyList (map exclude_none items)
  | PyDict entries =>
      PyDict ((fix fields_of (l : list (pyval * pyval)) : list (pyval * pyval) :=
                 match l with
                 | [] => []
                 | (_, PyNone) :: rest => fields_of rest
                 | (k, x) :: rest => (k, exclude_none x) :: fields_of rest
                 end) entries)
  | _ => v
  end.

Definition serialize_response {A : Type} (route : Route A) (a : A) : pyval :=
  let content := response_model_dump route a in
  if response_model_exclude_none route then exclude_none content else content.

(** What the client receives for each way a handler can end: the
    serialized return value with status 200; for an [HTTPException], its
    status and a JSON object carrying its detail; for any other exception,
    which nothing in the application catches, the server's fallback. *)
Definition respond {A : Type} (route : Route A) (o : outcome A) : HTTPResponse :=
  match o with
  | Returned a => {| status := 200; body := JSON (serialize_response route a) |}
  | Raised (HTTPException code detail _) =>
      {| status := code; body := JSON (PyDict [(PyStr "detail", PyStr detail)]) |}
  | Raised _ => {| status := 500; body := PlainText "Internal Server Error" |}
  end.

(** The handler ended by an exception that is not an [HTTPException]: it
    left the handler unhandled. *)
Definition uncaught {A : Type} (o : outcome A) : bool :=
  match o with
  | Returned _ => false
  | Raised (HTTPException _ _ _) => false
  | Raised _ => true
  end.

(** One request served: run the handler, answer from how it ended. *)
Definition serve {A : Type} (route : Route A) (handler : Eff A)
    (w : World) : HTTPResponse * World :=
  match handler w with
  | (o, w') => (respond route o, w')
  end.

(** The bytes of the response body. *)
Definition render `{Libraries} (r : HTTPResponse) : string :=
  match body r with
  | JSON content => json_dumps content
  | PlainText s => s
  end.

End FastAPI.

(** ** The handlers ([handlers/external.py]) *)

Module External.
Section Handlers.

Context `{Libraries}.

(** The module-level [config = Config()] the handlers import. *)
Variable config : Config.Config.

(** [get_index] *)
Definition get_index (logger : BoundLogger) : Eff Models.Index :=
  logger_info logger "Request for application metadata" [] ;;
  let metadata :=
    Models.get_metadata "jeremym-fastapi-example" (Config.name config) in
  ret {| Models.metadata := metadata |}.

(** [get_greeting] *)
Definition get_greeting : Eff string :=
  ret "Hello, SQuaRE Services Bootcamp!".

(** [fetch_data] *)
Definition fetch_data (schema_url : string) : Eff string :=
  Httpx.async_with httpx_AsyncClient (fun client =>
    response <-
      try_except (Httpx.get client schema_url)
        (fun e =>
           if Httpx.is_RequestError e
           then Some (raise (HTTPException 200
                               ("URL not found" ++ LF ++ schema_url) (Some e)))
           else None) ;;
    ret (Httpx.text response)).

(** The f-string of [get_schema]'s first line. *)
Definition schema_url_of (name : string) : string :=
  "https://raw.githubusercontent.com/lsst/sdm_schemas/main/yml/" ++ name ++ ".yaml".

(** [get_schema] *)
Definition get_schema (name : string) (logger : BoundLogger)
    (http_client : Httpx.AsyncClient) : Eff Schema :=
  let schema_url := schema_url_of name in
  logger_info logger "Request for SDM schema" [("schema_url", schema_url)] ;;
  response <-
    try_except (Httpx.get http_client schema_url)
      (fun e =>
         if Httpx.is_RequestError e
         then Some (raise (HTTPException 404
                             ("URL not found" ++ LF ++ schema_url) (Some e)))
         else None) ;;
  data <- lift (match yaml_safe_load (Httpx.text response) with
                | inl msg => inl (YAMLError msg)
                | inr v => inr v
                end) ;;
  lift (call_with_kwargs
          (fun kw => match Schema_init kw with
                     | inl errs => inl (ValidationError errs)
                     | inr s => inr s
                     end)
          data).

(** Lines 95 and 96 of [get_schema] on their own: what the handler makes
    of a fetched body. *)
Definition schema_of_text (text : string) : outcome Schema :=
  match yaml_safe_load text with
  | inl msg => Raised (YAMLError msg)
  | inr data =>
      match call_with_kwargs
              (fun kw => match Schema_init kw with
                         | inl errs => inl (ValidationError errs)
                         | inr s => inr s
                         end)
              data with
      | inl e => Raised e
      | inr s => Returned s
      end
  end.

(** The world after [get_schema] has logged its line and sent its
    request. *)
Definition after_get_schema (name : string) (logger : BoundLogger)
    (w : World) : World :=
  {| log := (log w ++ [{| level := "info";
                          event := "Request for SDM schema";
                          fields := (bound logger
                                     ++ [("schema_url", schema_url_of name)])%list |}])%list;
     requests := (requests w ++ [schema_url_of name])%list;
     clients_created := clients_created w;
     clients_open := clients_open w |}.

(** *** The routes, as the decorators register them *)

Definition index_route : FastAPI.Route Models.Index :=
  {| FastAPI.path := "/";
     FastAPI.response_model_dump := Models.Index_dump;
     FastAPI.response_model_exclude_none := true |}.

Definition greeting_route : FastAPI.Route string :=
  {| FastAPI.path := "/hello";
     FastAPI.response_model_dump := PyStr;
     FastAPI.response_model_exclude_none := false |}.

Definition schema_route : FastAPI.Route Schema :=
  {| FastAPI.path := "/schema";
     FastAPI.response_model_dump := Schema_dump;
     FastAPI.response_model_exclude_none := false |}.

(** [GET /] *)
Definition GET_index (logger : BoundLogger) (w : World)
    : FastAPI.HTTPResponse * World :=
  FastAPI.serve index_route (get_index logger) w.

(** [GET /hello] *)
Definition GET_hello (w : World) : FastAPI.HTTPResponse * World :=
  FastAPI.serve greeting_route get_greeting w.

(** [GET /schema?name=...] *)
Definition GET_schema (name : string) (logger : BoundLogger)
    (http_client : Httpx.AsyncClient) (w : World)
    : FastAPI.HTTPResponse * World :=
  FastAPI.serve schema_route (get_schema name logger http_client) w.

End Handlers.
End External.

(** ** A worked deployment *)

(** Concrete libraries, documents and clients on which the handlers are
    run: a schema class in the style of felis's, with three required fields
    and one optional; the parser's answers on four documents; a remote host
    that serves them; and a host that cannot be reached. *)
Module Demo.

Definition complete_doc : string :=
  "name: demo" ++ LF ++ "'@id': '#demo'" ++ LF ++ "tables: []" ++ LF.
Definition incomplete_doc : string := "name: demo" ++ LF.
Definition malformed_doc : string := "name: [demo" ++ LF.
Definition not_found_body : string := "404: Not Found".

(** [yaml.safe_load] on the four documents; any other text is treated as
    unparseable. *)
Definition yaml (text : string) : string + pyval :=
  if String.eqb text complete_doc then
    inr (PyDict [ (PyStr "name", PyStr "demo");
                  (PyStr "@id", PyStr "#demo");
                  (PyStr "tables", PyList []) ])
  else if String.eqb text incomplete_doc then
    inr (PyDict [ (PyStr "name", PyStr "demo") ])
  else if String.eqb text not_found_body then
    inr (PyDict [ (PyInt 404, PyStr "Not Found") ])
  else inl "could not parse the document".

Record DemoSchema : Type := {
  schema_name : string;
  schema_id : string;
  schema_description : option string;
  schema_tables : list pyval
}.

Fixpoint kwarg (key : string) (kw : list (string * pyval)) : option pyval :=
  match kw with
  | [] => None
  | (k, v) :: rest => if String.eqb k key then Some v else kwarg key rest
  end.

Definition required_str (key : string) (kw : list (string * pyval)) : option string :=
  match kwarg key kw with
  | Some (PyStr s) => Some s
  | _ => None
  end.

Definition required_list (key : string) (kw : list (string * pyval))
    : option (list pyval) :=
  match kwarg key kw with
  | Some (PyList l) => Some l
  | _ => None
  end.

(** An optional string field: unset, it holds [None]. *)
Definition optional_str (key : string) (kw : list (string * pyval))
    : option (option string) :=
  match kwarg key kw with
  | None => Some None
  | Some PyNone => Some None
  | Some (PyStr s) => Some (Some s)
  | Some _ => None
  end.

Definition DemoSchema_init (kw : list (string * pyval)) : list string + DemoSchema :=
  let n := required_str "name" kw in
  let i := required_str "@id" kw in
  let d := optional_str "description" kw in
  let t := required_list "tables" kw in
  match n, i, d, t with
  | Some n', Some i', Some d', Some t' =>
      inr {| schema_name := n'; schema_id := i';
             schema_description := d'; schema_tables := t' |}
  | _, _, _, _ =>
      inl (Config.field_error "name" n ++ Config.field_error "@id" i
           ++ Config.field_error "description" d
           ++ Config.field_error "tables" t)%list
  end.

Definition DemoSchema_dump (s : DemoSchema) : pyval :=
  PyDict [ (PyStr "name", PyStr (schema_name s));
           (PyStr "@id", PyStr (schema_id s));
           (PyStr "description",
            match schema_description s with
            | Some d => PyStr d
            | None => PyNone
            end);
           (PyStr "tables", PyList (schema_tables s)) ].

(** A compact JSON rendering. *)
Definition dquote : ascii := ascii_of_nat 34.
Definition backslash : ascii := ascii_of_nat 92.

Fixpoint escape (s : string) : string :=
  match s with
  | EmptyString => EmptyString
  | String c rest =>
      if (Ascii.eqb c dquote || Ascii.eqb c backslash)%bool
      then String backslash (String c (escape rest))
      else String c (escape rest)
  end.

Definition quoted (s : string) : string :=
  String dquote (escape s ++ String dquote EmptyString).

Definition decimal (z : Z) : string :=
  DecimalString.NilZero.string_of_int (Z.to_int z).

Fixpoint json (v : pyval) : string :=
  match v with
  | PyNone => "null"
  | PyBool true => "true"
  | PyBool false => "false"
  | PyInt z => decimal z
  | PyStr s => quoted s
  | PyOther repr => repr
  | PyList items =>
      "[" ++ (fix elements (l : list pyval) : string :=
                match l with
                | [] => ""
                | [x] => json x
                | x :: rest => json x ++ "," ++ elements rest
                end) items ++ "]"
  | PyDict entries =>
      "{" ++ (fix members (l : list (pyval * pyval)) : string :=
                match l with
                | [] => ""
                | (k, x) :: rest =>
                    let key := match k with
                               | PyStr s => quoted s
                               | other => quoted (json other)
                               end in
                    let member := key ++ ":" ++ json x in
                    match rest with
                    | [] => member
                    | _ :: _ => member ++ "," ++ members rest
                    end
                end) entries ++ "}"
  end.

(** The remote document host: three schema names are served; every other
    URL is answered 404 with a short text body. *)
Definition remote : Httpx.AsyncClient :=
  {| Httpx.transport := fun url =>
       if String.eqb url (External.schema_url_of "demo") then
         inr {| Httpx.status_code := 200; Httpx.text := complete_doc |}
       else if String.eqb url (External.schema_url_of "incomplete") then
         inr {| Httpx.status_code := 200; Httpx.text := incomplete_doc |}
       else if String.eqb url (External.schema_url_of "broken") then
         inr {| Httpx.status_code := 200; Httpx.text := malformed_doc |}
       else
         inr {| Httpx.status_code := 404; Httpx.text := not_found_body |} |}.

(** A mirror that serves the same bodies, every one with status 200. *)
Definition mirror : Httpx.AsyncClient :=
  {| Httpx.transport := fun url =>
       match Httpx.transport remote url with
       | inr r => inr {| Httpx.status_code := 200; Httpx.text := Httpx.text r |}
       | inl e => inl e
       end |}.

(** A host whose name does not resolve. *)
Definition unreachable : Httpx.AsyncClient :=
  {| Httpx.transport := fun _ => inl (RequestError "Name or service not known") |}.

Definition libraries : Libraries :=
  {| yaml_safe_load := yaml;
     Schema := DemoSchema;
     Schema_init := DemoSchema_init;
     Schema_dump := DemoSchema_dump;
     httpx_AsyncClient := unreachable;
     package_version := fun _ => "0.1.0";
     package_summary := fun _ => "An example service";
     package_source_url := fun _ => "https://github.com/lsst-dm/jeremym-fastapi-example";
     package_homepage := fun _ => "https://jeremym-fastapi-example.lsst.io";
     json_dumps := json |}.

Definition logger : BoundLogger :=
  {| logger_name := "jeremymfastapiexample"; bound := [] |}.

Definition idle : World :=
  {| log := []; requests := []; clients_created := 0; clients_open := 0 |}.

(** A world that has already served one request. *)
Definition busy : World :=
  {| log := [ {| level := "info"; event := "Request for application metadata";
                 fields := [] |} ];
     requests := [External.schema_url_of "demo"];
     clients_created := 1;
     clients_open := 0 |}.

Definition config : Config.Config :=
  {| Config.name := "jeremym-fastapi-example";
     Config.path_prefix := "/jeremym-fastapi-example";
     Config.profile := Config.development;
     Config.log_level := Config.INFO |}.

End Demo.

(** The same deployment seen from [fetch_data], whose client is the one
    [httpx.AsyncClient()] constructs: once with the remote host in reach,
    once with a client that refuses the URL before anything is sent. *)
Module Online.

Definition rejecting : Httpx.AsyncClient :=
  {| Httpx.transport := fun _ => inl (InvalidURL "Invalid non-printable character") |}.

Definition with_client (client : Httpx.AsyncClient) : Libraries :=
  {| yaml_safe_load := Demo.yaml;
     Schema := Demo.DemoSchema;
     Schema_init := Demo.DemoSchema_init;
     Schema_dump := Demo.DemoSchema_dump;
     httpx_AsyncClient := client;
     package_version := fun _ => "0.1.0";
     package_summary := fun _ => "An example service";
     package_source_url := fun _ => "https://github.com/lsst-dm/jeremym-fastapi-example";
     package_homepage := fun _ => "https://jeremym-fastapi-example.lsst.io";
     json_dumps := Demo.json |}.

Definition reachable : Libraries := with_client Demo.remote.
Definition refused : Libraries := with_client rejecting.

(** An environment that overrides the name, empties the path prefix and
    carries variables of other programs. *)
Definition renamed : Config.environ :=
  [ ("HOME", "/root");
    ("Jeremym_FastAPI_Example_Name", "schema-browser");
    ("JEREMYM_FASTAPI_EXAMPLE_PATH_PREFIX", "") ].


End Online.

(** * Properties *)

(** ** The effect monad *)

Section EffLaws.

Variables A B C : Type.

Lemma bind_ret_l (a : A) (k : A -> Eff B) (w : World) :
  bind (ret a) k w = k a w.
Proof. reflexivity. Qed.

Lemma bind_ret_r (m : Eff A) (w : World) :
  bind m ret w = m w.
Proof.
  unfold bind, ret. destruct (m w) as [[a | e] w']; reflexivity.
Qed.

Lemma bind_assoc (m : Eff A) (k : A -> Eff B) (h : B -> Eff C) (w : World) :
  bind (bind m k) h w = bind m (fun a => bind (k a) h) w.
Proof.
  unfold bind. destruct (m w) as [[a | e] w']; reflexivity.
Qed.

Lemma bind_raise (e : exn) (k : A -> Eff B) (w : World) :
  bind (raise e) k w = (Raised e, w).
Proof. reflexivity. Qed.

Lemma try_except_returned (m : Eff A) (clause : exn -> option (Eff A))
    (w w' : World) (a : A) :
  m w = (Returned a, w') -> try_except m clause w = (Returned a, w').
Proof. intros Hm. unfold try_except. rewrite Hm. reflexivity. Qed.

Lemma try_except_caught (m : Eff A) (clause : exn -> option (Eff A))
    (w w' : World) (e : exn) (h : Eff A) :
  m w = (Raised e, w') -> clause e = Some h -> try_except m clause w = h w'.
Proof. intros Hm Hc. unfold try_except. rewrite Hm, Hc. reflexivity. Qed.

Lemma try_except_propagates (m : Eff A) (clause : exn -> option (Eff A))
    (w w' : World) (e : exn) :
  m w = (Raised e, w') -> clause e = None -> try_except m clause w = (Raised e, w').
Proof. intros Hm Hc. unfold try_except. rewrite Hm, Hc. reflexivity. Qed.

End EffLaws.

(** ** [get_schema], case by case *)

Section GetSchema.

Context `{Libraries}.

Variables (name : string) (logger : BoundLogger)
          (http_client : Httpx.AsyncClient) (w : World).

(** Whatever happens, the handler logs one line and sends one request. *)
Lemma get_schema_world :
  snd (External.get_schema name logger http_client w)
  = External.after_get_schema name logger w.
Proof.
  unfold External.get_schema, External.after_get_schema, bind, try_except,
    logger_info, Httpx.get, lift, raise, ret.
  cbn [log requests clients_created clients_open].
  destruct (Httpx.transport http_client (External.schema_url_of name)) as [e | r].
  - destruct (Httpx.is_RequestError e); reflexivity.
  - destruct (yaml_safe_load (Httpx.text r)) as [msg | data]; [reflexivity |].
    destruct (call_with_kwargs _ data); reflexivity.
Qed.

(** The request failed with a [RequestError]: the except clause turns it
    into an [HTTPException] with status 404. *)
Lemma get_schema_request_error (e : exn) :
  Httpx.transport http_client (External.schema_url_of name) = inl e ->
  Httpx.is_RequestError e = true ->
  fst (External.get_schema name logger http_client w)
  = Raised (HTTPException 404
              ("URL not found" ++ LF ++ External.schema_url_of name) (Some e)).
Proof.
  intros Ht He.
  unfold External.get_schema, bind, try_except, logger_info, Httpx.get, lift,
    raise, ret.
  cbn [log requests clients_created clients_open].
  rewrite Ht, He. reflexivity.
Qed.

(** The request failed with another exception: it is not caught. *)
Lemma get_schema_other_error (e : exn) :
  Httpx.transport http_client (External.schema_url_of name) = inl e ->
  Httpx.is_RequestError e = false ->
  fst (External.get_schema name logger http_client w) = Raised e.
Proof.
  intros Ht He.
  unfold External.get_schema, bind, try_except, logger_info, Httpx.get, lift,
    raise, ret.
  cbn [log requests clients_created clients_open].
  rewrite Ht, He. reflexivity.
Qed.

(** A response arrived: the outcome is a function of its text alone. *)
Lemma get_schema_fetched (r : Httpx.Response) :
  Httpx.transport http_client (External.schema_url_of name) = inr r ->
  fst (External.get_schema name logger http_client w)
  = External.schema_of_text (Httpx.text r).
Proof.
  intros Ht.
  unfold External.get_schema, External.schema_of_text, bind, try_except,
    logger_info, Httpx.get, lift, raise, ret.
  cbn [log requests clients_created clients_open].
  rewrite Ht.
  destruct (yaml_safe_load (Httpx.text r)) as [msg | data]; [reflexivity |].
  destruct (call_with_kwargs _ data); reflexivity.
Qed.

Lemma GET_schema_response :
  fst (External.GET_schema name logger http_client w)
  = FastAPI.respond External.schema_route
      (fst (External.get_schema name logger http_client w)).
Proof.
  unfold External.GET_schema, FastAPI.serve.
  destruct (External.get_schema name logger http_client w); reflexivity.
Qed.

Lemma GET_schema_world :
  snd (External.GET_schema name logger http_client w)
  = External.after_get_schema name logger w.
Proof.
  unfold External.GET_schema, FastAPI.serve.
  rewrite <- get_schema_world.
  destruct (External.get_schema name logger http_client w); reflexivity.
Qed.

End GetSchema.

(** ** The schema route *)

Section SchemaRoute.

Context `{Libraries}.

(** C5.  For every value of [name], the empty string and names with path
    segments included, the handler sends its one request to the fixed
    template with [name] substituted as it came: nothing is checked,
    rejected or rewritten before the request leaves. *)
Theorem get_schema_requests_unvalidated_url :
  forall (name : string) (logger : BoundLogger)
         (http_client : Httpx.AsyncClient) (w : World),
    requests (snd (External.get_schema name logger http_client w))
    = (requests w
       ++ [("https://raw.githubusercontent.com/lsst/sdm_schemas/main/yml/"
            ++ name ++ ".yaml")%string])%list.
Proof.
  intros name logger http_client w.
  rewrite get_schema_world. reflexivity.
Qed.


(** C7.  Two calls for the same name that receive the same text from the
    remote host answer with the same status and the same body bytes,
    whatever the logger, the client and the state of the world at each
    call. *)
Theorem GET_schema_deterministic :
  forall (name : string) (logger1 logger2 : BoundLogger)
         (client1 client2 : Httpx.AsyncClient) (w1 w2 : World)
         (r1 r2 : Httpx.Response),
    Httpx.transport client1 (External.schema_url_of name) = inr r1 ->
    Httpx.transport client2 (External.schema_url_of name) = inr r2 ->
    Httpx.text r1 = Httpx.text r2 ->
    FastAPI.status (fst (External.GET_schema name logger1 client1 w1))
    = FastAPI.status (fst (External.GET_schema name logger2 client2 w2))
    /\ FastAPI.render (fst (External.GET_schema name logger1 client1 w1))
       = FastAPI.render (fst (External.GET_schema name logger2 client2 w2)).
Proof.
  intros name logger1 logger2 client1 client2 w1 w2 r1 r2 H1 H2 Htext.
  rewrite !GET_schema_response.
  rewrite (get_schema_fetched _ _ _ _ H1), (get_schema_fetched _ _ _ _ H2).
  rewrite Htext. split; reflexivity.
Qed.


(** C2 (amended).  When the request fails at the transport level, the
    response has status 404 and its detail names the URL that was tried. *)
Theorem GET_schema_unreachable_404 :
  forall (name : string) (logger : BoundLogger)
         (http_client : Httpx.AsyncClient) (w : World) (message : string),
    Httpx.transport http_client (External.schema_url_of name)
    = inl (RequestError message) ->
    fst (External.GET_schema name logger http_client w)
    = {| FastAPI.status := 404;
         FastAPI.body :=
           FastAPI.JSON
             (PyDict [(PyStr "detail",
                       PyStr ("URL not found" ++ LF
                              ++ External.schema_url_of name))]) |}.
Proof.
  intros name logger http_client w message Ht.
  rewrite GET_schema_response.
  rewrite (get_schema_request_error name logger http_client w Ht eq_refl). reflexivity.
Qed.

(** C3 (amended).  When the body is not valid YAML, the parser's
    exception is not caught: it leaves the handler as it was raised, and
    the 500 the client sees is the server's fallback for unhandled
    exceptions, a plain-text body. *)
Theorem GET_schema_malformed_yaml_uncaught :
  forall (name : string) (logger : BoundLogger)
         (http_client : Httpx.AsyncClient) (w : World) (r : Httpx.Response)
         (message : string),
    Httpx.transport http_client (External.schema_url_of name) = inr r ->
    yaml_safe_load (Httpx.text r) = inl message ->
    fst (External.get_schema name logger http_client w)
    = Raised (YAMLError message)
    /\ fst (External.GET_schema name logger http_client w)
       = {| FastAPI.status := 500;
            FastAPI.body := FastAPI.PlainText "Internal Server Error" |}.
Proof.
  intros name logger http_client w r message Ht Hy.
  rewrite GET_schema_response, (get_schema_fetched _ _ _ _ Ht).
  unfold External.schema_of_text. rewrite Hy. split; reflexivity.
Qed.

(** C4 (amended).  When the body is valid YAML but the schema class
    rejects it, the validation error is not caught: it leaves the handler
    as it was raised, and the client sees the server's fallback, status
    500 with a plain-text body that names no field. *)
Theorem GET_schema_invalid_schema_uncaught :
  forall (name : string) (logger : BoundLogger)
         (http_client : Httpx.AsyncClient) (w : World) (r : Httpx.Response)
         (entries : list (pyval * pyval)) (kw : list (string * pyval))
         (errors : list string),
    Httpx.transport http_client (External.schema_url_of name) = inr r ->
    yaml_safe_load (Httpx.text r) = inr (PyDict entries) ->
    keywords entries = Some kw ->
    Schema_init kw = inl errors ->
    fst (External.get_schema name logger http_client w)
    = Raised (ValidationError errors)
    /\ fst (External.GET_schema name logger http_client w)
       = {| FastAPI.status := 500;
            FastAPI.body := FastAPI.PlainText "Internal Server Error" |}.
Proof.
  intros name logger http_client w r entries kw errors Ht Hy Hk Hs.
  rewrite GET_schema_response, (get_schema_fetched _ _ _ _ Ht).
  unfold External.schema_of_text, call_with_kwargs.
  rewrite Hy, Hk, Hs. split; reflexivity.
Qed.

(** C9.  The same transport failure on the same URL is reported with two
    different status codes: [fetch_data] raises an [HTTPException]
    carrying 200, [get_schema] one carrying 404. *)
Theorem unreachable_status_codes_differ :
  forall (name : string) (logger : BoundLogger)
         (http_client : Httpx.AsyncClient) (w1 w2 : World) (message : string),
    Httpx.transport httpx_AsyncClient (External.schema_url_of name)
    = inl (RequestError message) ->
    Httpx.transport http_client (External.schema_url_of name)
    = inl (RequestError message) ->
    fst (External.fetch_data (External.schema_url_of name) w1)
    = Raised (HTTPException 200
                ("URL not found" ++ LF ++ External.schema_url_of name)
                (Some (RequestError message)))
    /\ fst (External.get_schema name logger http_client w2)
       = Raised (HTTPException 404
                   ("URL not found" ++ LF ++ External.schema_url_of name)
                   (Some (RequestError message))).
Proof.
  intros name logger http_client w1 w2 message Hnew Hshared. split.
  - unfold External.fetch_data, Httpx.async_with, bind, try_except,
      Httpx.get, raise, ret.
    cbn [log requests clients_created clients_open].
    rewrite Hnew. reflexivity.
  - exact (get_schema_request_error name logger http_client w2 Hshared eq_refl).
Qed.

End SchemaRoute.

(** ** The index route *)

Section IndexRoute.

Context `{Libraries}.

Lemma get_index_returns (config : Config.Config) (logger : BoundLogger) (w : World) :
  fst (External.get_index config logger w)
  = Returned {| Models.metadata :=
                  Models.get_metadata "jeremym-fastapi-example" (Config.name config) |}.
Proof. reflexivity. Qed.

Lemma get_index_world (config : Config.Config) (logger : BoundLogger) (w : World) :
  snd (External.get_index config logger w)
  = {| log := (log w ++ [{| level := "info";
                            event := "Request for application metadata";
                            fields := (bound logger ++ [])%list |}])%list;
       requests := requests w;
       clients_created := clients_created w;
       clients_open := clients_open w |}.
Proof. reflexivity. Qed.

(** C8.  Every request to the root is answered 200 with a JSON object whose
    only field is [metadata]; its [name] is the configured application name
    and [version], [description], [repository_url] and [documentation_url]
    are present, each a string.  No configuration, logger or world makes the
    handler raise. *)
Theorem GET_index_metadata :
  forall (config : Config.Config) (logger : BoundLogger) (w : World),
    fst (External.GET_index config logger w)
    = {| FastAPI.status := 200;
         FastAPI.body :=
           FastAPI.JSON
             (PyDict
                [(PyStr "metadata",
                  PyDict
                    [(PyStr "name", PyStr (Config.name config));
                     (PyStr "version",
                      PyStr (package_version "jeremym-fastapi-example"));
                     (PyStr "description",
                      PyStr (package_summary "jeremym-fastapi-example"));
                     (PyStr "repository_url",
                      PyStr (package_source_url "jeremym-fastapi-example"));
                     (PyStr "documentation_url",
                      PyStr (package_homepage "jeremym-fastapi-example"))])]) |}.
Proof.
  intros config logger w. reflexivity.
Qed.

Lemma GET_hello_greeting (w : World) :
  External.GET_hello w
  = ({| FastAPI.status := 200;
        FastAPI.body := FastAPI.JSON (PyStr "Hello, SQuaRE Services Bootcamp!") |},
     w).
Proof. reflexivity. Qed.

End IndexRoute.

(** ** Configuration *)

Section Settings.

Import Config.

Lemma env_lookup_none (key : string) (env : environ) :
  env_lookup key env = None <->
  (forall k v, In (k, v) env -> fold_case k <> key).
Proof.
  induction env as [| [k0 v0] rest IH]; simpl.
  - split; [intros _ k v [] | reflexivity].
  - destruct (env_lookup key rest) as [later |] eqn:Hrest.
    + split; [discriminate |].
      intros Hall.
      assert (Hnone : Some later = None).
      { apply IH. intros k v Hin. apply (Hall k v). right. exact Hin. }
      discriminate Hnone.
    + destruct (String.eqb_spec (fold_case k0) key) as [Heq | Hne].
      * split; [discriminate |].
        intros Hall. exfalso. apply (Hall k0 v0); [left; reflexivity | exact Heq].
      * split; [| reflexivity].
        intros _ k v [Hhd | Htl].
        -- inversion Hhd; subst. exact Hne.
        -- apply (proj1 IH eq_refl k v Htl).
Qed.

(** A later variable that folds to the same name replaces an earlier one. *)
Lemma env_lookup_last (key : string) (env : environ) (k v : string) :
  fold_case k = key -> env_lookup key (env ++ [(k, v)])%list = Some v.
Proof.
  intros Hk. induction env as [| [k0 v0] rest IH]; simpl.
  - rewrite Hk, String.eqb_refl. reflexivity.
  - rewrite IH. reflexivity.
Qed.

(** A string field takes the environment's value as it is. *)
Lemma path_prefix_from_env (env : environ) (value : string) (c : Config) :
  field_env env "path_prefix" = Some value ->
  Config_init env = inr c ->
  path_prefix c = value.
Proof.
  intros Hp. unfold Config_init, setting. rewrite Hp.
  destruct (field_env env "name");
    destruct (field_env env "profile") as [pr |];
    [destruct (parse_Profile pr) | | destruct (parse_Profile pr) |];
    destruct (field_env env "log_level") as [ll |];
    try destruct (parse_LogLevel ll);
    simpl; intros Hc; inversion Hc; reflexivity.
Qed.

(** C10 (amended).  When the environment supplies no path prefix, the
    prefix is [/jeremym-fastapi-example]; and if the configuration cannot
    be built, the path prefix is not among the fields at fault. *)
Theorem path_prefix_default :
  forall env : environ,
    field_env env "path_prefix" = None ->
    match Config_init env with
    | inr c => path_prefix c = "/jeremym-fastapi-example"
    | inl errors => ~ In "path_prefix" errors
    end.
Proof.
  intros env Hp. unfold Config_init, setting. rewrite Hp.
  destruct (field_env env "name");
    destruct (field_env env "profile") as [pr |];
    [destruct (parse_Profile pr) | | destruct (parse_Profile pr) |];
    destruct (field_env env "log_level") as [ll |];
    try destruct (parse_LogLevel ll);
    simpl; try reflexivity;
    intros Hin; repeat (destruct Hin as [Hin | Hin]; [discriminate Hin |]);
    exact Hin.
Qed.

End Settings.

(** ** The handlers on the worked deployment *)

Section Deployment.

#[local] Existing Instance Demo.libraries.

(** *** What the code does where the specification says otherwise *)


(** C2, as stated, fails.  With the remote host unreachable the response
    status is 404, not 502. *)
Lemma GET_schema_unreachable_not_502 :
  Httpx.transport Demo.unreachable (External.schema_url_of "demo")
  = inl (RequestError "Name or service not known")
  /\ FastAPI.status
       (fst (External.GET_schema "demo" Demo.logger Demo.unreachable Demo.idle))
     <> 502.
Proof.
  split; [reflexivity |].
  vm_compute. discriminate.
Qed.

(** C3, as stated, fails.  On a body that is not valid YAML the handler
    ends with the parser's exception, not with an [HTTPException]: nothing
    recovers the failure before it leaves the handler. *)
Lemma get_schema_malformed_yaml_not_recovered :
  Demo.yaml Demo.malformed_doc = inl "could not parse the document"
  /\ FastAPI.uncaught
       (fst (External.get_schema "broken" Demo.logger Demo.remote Demo.idle))
     = true
  /\ ~ (exists code detail cause,
          fst (External.get_schema "broken" Demo.logger Demo.remote Demo.idle)
          = Raised (HTTPException code detail cause)).
Proof.
  split; [reflexivity |]. split; [reflexivity |].
  intros (code & detail & cause & Hraised).
  vm_compute in Hraised. discriminate Hraised.
Qed.

(** C4, as stated, fails.  On a document that lacks required fields the
    response status is 500, not 422, and its body names no field. *)
Lemma GET_schema_invalid_schema_not_422 :
  fst (External.get_schema "incomplete" Demo.logger Demo.remote Demo.idle)
  = Raised (ValidationError ["@id"; "tables"])
  /\ FastAPI.status
       (fst (External.GET_schema "incomplete" Demo.logger Demo.remote Demo.idle))
     <> 422.
Proof.
  split; [reflexivity |].
  vm_compute. discriminate.
Qed.

(** C10, as stated, fails.  With an empty environment the configuration
    is built and its path prefix is not the empty string. *)
Lemma path_prefix_default_not_empty :
  exists c : Config.Config,
    Config.Config_init [] = inr c /\ Config.path_prefix c <> "".
Proof.
  eexists. split; [reflexivity |].
  simpl. discriminate.
Qed.

(** *** The theorems at concrete inputs *)


Lemma GET_schema_unreachable_404_witness :
  fst (External.GET_schema "dp02_dc2" Demo.logger Demo.unreachable Demo.idle)
  = {| FastAPI.status := 404;
       FastAPI.body :=
         FastAPI.JSON
           (PyDict [(PyStr "detail",
                     PyStr ("URL not found" ++ LF
                            ++ External.schema_url_of "dp02_dc2"))]) |}.
Proof.
  apply (@GET_schema_unreachable_404 Demo.libraries "dp02_dc2" Demo.logger
           Demo.unreachable Demo.idle "Name or service not known").
  reflexivity.
Defined.

Lemma GET_schema_malformed_yaml_uncaught_witness :
  fst (External.get_schema "broken" Demo.logger Demo.remote Demo.idle)
  = Raised (YAMLError "could not parse the document")
  /\ fst (External.GET_schema "broken" Demo.logger Demo.remote Demo.idle)
     = {| FastAPI.status := 500;
          FastAPI.body := FastAPI.PlainText "Internal Server Error" |}.
Proof.
  apply (@GET_schema_malformed_yaml_uncaught Demo.libraries "broken" Demo.logger
           Demo.remote Demo.idle
           {| Httpx.status_code := 200; Httpx.text := Demo.malformed_doc |});
    reflexivity.
Defined.

Lemma GET_schema_invalid_schema_uncaught_witness :
  fst (External.get_schema "incomplete" Demo.logger Demo.remote Demo.idle)
  = Raised (ValidationError ["@id"; "tables"])
  /\ fst (External.GET_schema "incomplete" Demo.logger Demo.remote Demo.idle)
     = {| FastAPI.status := 500;
          FastAPI.body := FastAPI.PlainText "Internal Server Error" |}.
Proof.
  apply (@GET_schema_invalid_schema_uncaught Demo.libraries "incomplete"
           Demo.logger Demo.remote Demo.idle
           {| Httpx.status_code := 200; Httpx.text := Demo.incomplete_doc |}
           [ (PyStr "name", PyStr "demo") ]
           [ ("name", PyStr "demo") ]);
    reflexivity.
Defined.


Lemma GET_schema_deterministic_witness :
  FastAPI.status (fst (External.GET_schema "demo" Demo.logger Demo.remote Demo.idle))
  = FastAPI.status
      (fst (External.GET_schema "demo"
              {| logger_name := "other"; bound := [("request_id", "7")] |}
              Demo.mirror Demo.busy))
  /\ FastAPI.render (fst (External.GET_schema "demo" Demo.logger Demo.remote Demo.idle))
     = FastAPI.render
         (fst (External.GET_schema "demo"
                 {| logger_name := "other"; bound := [("request_id", "7")] |}
                 Demo.mirror Demo.busy)).
Proof.
  apply (@GET_schema_deterministic Demo.libraries "demo" Demo.logger
           {| logger_name := "other"; bound := [("request_id", "7")] |}
           Demo.remote Demo.mirror Demo.idle Demo.busy
           {| Httpx.status_code := 200; Httpx.text := Demo.complete_doc |}
           {| Httpx.status_code := 200; Httpx.text := Demo.complete_doc |});
    reflexivity.
Defined.

Lemma unreachable_status_codes_differ_witness :
  fst (External.fetch_data (External.schema_url_of "demo") Demo.idle)
  = Raised (HTTPException 200
              ("URL not found" ++ LF ++ External.schema_url_of "demo")
              (Some (RequestError "Name or service not known")))
  /\ fst (External.get_schema "demo" Demo.logger Demo.unreachable Demo.busy)
     = Raised (HTTPException 404
                 ("URL not found" ++ LF ++ External.schema_url_of "demo")
                 (Some (RequestError "Name or service not known"))).
Proof.
  apply (@unreachable_status_codes_differ Demo.libraries "demo" Demo.logger
           Demo.unreachable Demo.idle Demo.busy "Name or service not known");
    reflexivity.
Defined.

Lemma path_prefix_default_witness :
  Config.field_env [("HOME", "/root");
                    ("JEREMYM_FASTAPI_EXAMPLE_LOG_LEVEL", "DEBUG")] "path_prefix"
  = None
  /\ match Config.Config_init [("HOME", "/root");
                               ("JEREMYM_FASTAPI_EXAMPLE_LOG_LEVEL", "DEBUG")] with
     | inr c => Config.path_prefix c = "/jeremym-fastapi-example"
     | inl errors => ~ In "path_prefix" errors
     end.
Proof.
  split; [reflexivity |].
  apply (path_prefix_default
           [("HOME", "/root"); ("JEREMYM_FASTAPI_EXAMPLE_LOG_LEVEL", "DEBUG")]).
  reflexivity.
Defined.

End Deployment.

(** ** Further checks on concrete inputs *)

Section Checks.

#[local] Existing Instance Demo.libraries.

Example Config_defaults :
  Config.Config_init [] = inr Demo.config.
Proof. reflexivity. Qed.

Example Config_prefix_from_env :
  Config.Config_init [("Jeremym_Fastapi_Example_Path_Prefix", "/api");
                      ("JEREMYM_FASTAPI_EXAMPLE_LOG_LEVEL", "DEBUG")]
  = inr {| Config.name := "jeremym-fastapi-example";
           Config.path_prefix := "/api";
           Config.profile := Config.development;
           Config.log_level := Config.DEBUG |}.
Proof. reflexivity. Qed.

Example Config_empty_prefix_from_env :
  Config.Config_init [("JEREMYM_FASTAPI_EXAMPLE_PATH_PREFIX", "")]
  = inr {| Config.name := "jeremym-fastapi-example";
           Config.path_prefix := "";
           Config.profile := Config.development;
           Config.log_level := Config.INFO |}.
Proof. reflexivity. Qed.

Example Config_bad_profile :
  Config.Config_init [("JEREMYM_FASTAPI_EXAMPLE_PROFILE", "staging");
                      ("JEREMYM_FASTAPI_EXAMPLE_LOG_LEVEL", "debug")]
  = inl ["profile"; "log_level"].
Proof. reflexivity. Qed.

Example schema_url_of_empty :
  External.schema_url_of ""
  = "https://raw.githubusercontent.com/lsst/sdm_schemas/main/yml/.yaml".
Proof. reflexivity. Qed.

Example schema_url_of_dot_segments :
  External.schema_url_of "../../README"
  = "https://raw.githubusercontent.com/lsst/sdm_schemas/main/yml/../../README.yaml".
Proof. reflexivity. Qed.

Example get_schema_dot_segments_requested :
  requests (snd (External.get_schema "../../README" Demo.logger Demo.remote Demo.idle))
  = ["https://raw.githubusercontent.com/lsst/sdm_schemas/main/yml/../../README.yaml"].
Proof. reflexivity. Qed.

(** The remote host's 404 page parses as a YAML mapping keyed by the integer
    404, which cannot be passed as keywords. *)
Example get_schema_remote_404 :
  fst (External.get_schema "unknown" Demo.logger Demo.remote Demo.idle)
  = Raised (TypeError "keywords must be strings").
Proof. reflexivity. Qed.

(** An exception of the client that is not a [RequestError] passes the
    except clause. *)
Example get_schema_invalid_url :
  fst (External.get_schema "demo" Demo.logger
         {| Httpx.transport := fun _ => inl (InvalidURL "Invalid non-printable character") |}
         Demo.idle)
  = Raised (InvalidURL "Invalid non-printable character").
Proof. reflexivity. Qed.

Example GET_schema_demo_bytes :
  FastAPI.render (fst (External.GET_schema "demo" Demo.logger Demo.remote Demo.idle))
  = "{" ++ Demo.quoted "name" ++ ":" ++ Demo.quoted "demo" ++ ","
    ++ Demo.quoted "@id" ++ ":" ++ Demo.quoted "#demo" ++ ","
    ++ Demo.quoted "description" ++ ":null,"
    ++ Demo.quoted "tables" ++ ":[]}".
Proof. reflexivity. Qed.

(** [fetch_data] opens a client of its own for the fetch and closes it;
    [get_schema] uses the one it is given. *)
Example fetch_data_opens_a_client :
  snd (External.fetch_data (External.schema_url_of "demo") Demo.idle)
  = {| log := [];
       requests := [External.schema_url_of "demo"];
       clients_created := 1;
       clients_open := 0 |}.
Proof. reflexivity. Qed.

Example get_schema_opens_no_client :
  clients_created
    (snd (External.get_schema "demo" Demo.logger Demo.remote Demo.idle)) = 0%nat.
Proof. reflexivity. Qed.

(** With [exclude_none] set, as on the index route, the same dump loses its
    unset field. *)
Example exclude_none_drops_unset :
  FastAPI.exclude_none
    (Demo.DemoSchema_dump
       {| Demo.schema_name := "demo"; Demo.schema_id := "#demo";
          Demo.schema_description := None; Demo.schema_tables := [] |})
  = PyDict [ (PyStr "name", PyStr "demo");
             (PyStr "@id", PyStr "#demo");
             (PyStr "tables", PyList []) ].
Proof. reflexivity. Qed.

End Checks.

(** ** More on [get_schema]: every way the handler can end *)

Section SchemaOutcomes.

Context `{Libraries}.

(** The keywords of a call are the mapping's entries, key by key, in
    order. *)
Lemma keywords_entries (entries : list (pyval * pyval)) :
  forall kw : list (string * pyval),
    keywords entries = Some kw ->
    entries = map (fun kv => (PyStr (fst kv), snd kv)) kw.
Proof.
  induction entries as [| [k v] rest IH]; intros kw Hk.
  - inversion Hk. reflexivity.
  - destruct k; try discriminate Hk. simpl in Hk.
    destruct (keywords rest) as [kw' |]; [| discriminate Hk].
    inversion Hk; subst. simpl. rewrite <- (IH kw' eq_refl). reflexivity.
Qed.

Lemma keywords_of_strings (kw : list (string * pyval)) :
  keywords (map (fun kv => (PyStr (fst kv), snd kv)) kw) = Some kw.
Proof.
  induction kw as [| [k v] rest IH]; simpl; [reflexivity |].
  rewrite IH. reflexivity.
Qed.

(** One key that is not a string is enough to refuse the call. *)
Lemma keywords_refused (entries : list (pyval * pyval)) :
  keywords entries = None <->
  exists k v, In (k, v) entries /\ forall s, k <> PyStr s.
Proof.
  induction entries as [| [k v] rest IH].
  - split; [discriminate | intros (k & v & [] & _)].
  - split.
    + intros Hk.
      destruct k;
        try (exists k0, v; split; [left; reflexivity | intros s0; discriminate]);
        try (eexists; exists v; split; [left; reflexivity | intros s0; discriminate]).
      simpl in Hk. destruct (keywords rest) as [kw' |]; [discriminate Hk |].
      destruct (proj1 IH eq_refl) as (k' & v' & Hin & Hns).
      exists k', v'. split; [right; exact Hin | exact Hns].
    + intros (k' & v' & [Hhd | Htl] & Hns).
      * inversion Hhd; subst. destruct k'; try reflexivity.
        exfalso. apply (Hns s). reflexivity.
      * assert (Hrest : keywords rest = None).
        { apply IH. exists k', v'. split; assumption. }
        destruct k; try reflexivity. simpl. rewrite Hrest. reflexivity.
Qed.

(** When what the parser produced cannot be spread as keywords, the call
    raises [TypeError] and the schema class is never consulted. *)
Lemma call_with_kwargs_refused (A : Type) (f : list (string * pyval) -> exn + A)
    (data : pyval) :
  match data with
  | PyDict entries => keywords entries = None
  | _ => True
  end ->
  exists message, call_with_kwargs f data = inl (TypeError message).
Proof.
  intros Hd. destruct data; simpl; try (eexists; reflexivity).
  rewrite Hd. eexists; reflexivity.
Qed.

(** X1.  [get_schema] returns a schema only when the remote host answered,
    its body parsed to a mapping whose keys are all strings, and the schema
    class accepted exactly that mapping's entries as keywords: the handler
    adds, drops and renames nothing between parser and schema class. *)
Theorem get_schema_returns_only_validated :
  forall (name : string) (logger : BoundLogger)
         (http_client : Httpx.AsyncClient) (w : World) (s : Schema),
    fst (External.get_schema name logger http_client w) = Returned s ->
    exists (r : Httpx.Response) (kw : list (string * pyval)),
      Httpx.transport http_client (External.schema_url_of name) = inr r
      /\ yaml_safe_load (Httpx.text r)
         = inr (PyDict (map (fun kv => (PyStr (fst kv), snd kv)) kw))
      /\ Schema_init kw = inr s.
Proof.
  intros name logger http_client w s Hret.
  destruct (Httpx.transport http_client (External.schema_url_of name))
    as [e | r] eqn:Ht.
  - destruct (Httpx.is_RequestError e) eqn:He.
    + rewrite (get_schema_request_error name logger http_client w Ht He) in Hret.
      discriminate Hret.
    + rewrite (get_schema_other_error name logger http_client w Ht He) in Hret.
      discriminate Hret.
  - rewrite (get_schema_fetched name logger http_client w Ht) in Hret.
    unfold External.schema_of_text in Hret.
    destruct (yaml_safe_load (Httpx.text r)) as [msg | data] eqn:Hy;
      [discriminate Hret |].
    destruct data; try discriminate Hret. simpl in Hret.
    destruct (keywords entries) as [kw |] eqn:Hk; [| discriminate Hret].
    destruct (Schema_init kw) as [errs | s'] eqn:Hs; [discriminate Hret |].
    inversion Hret; subst s'.
    exists r, kw. split; [reflexivity |]. split; [| exact Hs].
    rewrite (keywords_entries entries Hk) in Hy. exact Hy.
Qed.

(** X2.  An exception of the client that is not an [httpx.RequestError]
    passes the except clause untouched: the handler ends with that very
    exception, after the line was logged and the request sent. *)
Theorem get_schema_other_exception_propagates :
  forall (name : string) (logger : BoundLogger)
         (http_client : Httpx.AsyncClient) (w : World) (e : exn),
    Httpx.transport http_client (External.schema_url_of name) = inl e ->
    Httpx.is_RequestError e = false ->
    External.get_schema name logger http_client w
    = (Raised e, External.after_get_schema name logger w).
Proof.
  intros name logger http_client w e Ht He.
  rewrite (surjective_pairing (External.get_schema name logger http_client w)).
  rewrite (get_schema_other_error name logger http_client w Ht He).
  rewrite get_schema_world. reflexivity.
Qed.

(** X3.  When the body is valid YAML but not a mapping keyed by strings
    only (an empty document, a scalar, a sequence, a mapping with an integer
    key), the handler ends with a [TypeError] raised by the keyword call,
    the schema class is not reached, and the client is answered 500 by the
    server's fallback. *)
Theorem get_schema_not_a_string_keyed_mapping :
  forall (name : string) (logger : BoundLogger)
         (http_client : Httpx.AsyncClient) (w : World) (r : Httpx.Response)
         (data : pyval),
    Httpx.transport http_client (External.schema_url_of name) = inr r ->
    yaml_safe_load (Httpx.text r) = inr data ->
    match data with
    | PyDict entries => exists k v, In (k, v) entries /\ forall s, k <> PyStr s
    | _ => True
    end ->
    (exists message,
        fst (External.get_schema name logger http_client w)
        = Raised (TypeError message))
    /\ fst (External.GET_schema name logger http_client w)
       = {| FastAPI.status := 500;
            FastAPI.body := FastAPI.PlainText "Internal Server Error" |}.
Proof.
  intros name logger http_client w r data Ht Hy Hd.
  rewrite GET_schema_response, (get_schema_fetched name logger http_client w Ht).
  unfold External.schema_of_text. rewrite Hy.
  destruct (call_with_kwargs_refused
              (fun kw => match Schema_init kw with
                         | inl errs => inl (ValidationError errs)
                         | inr s => inr s
                         end) data) as [message Hcall].
  { destruct data; try exact I. apply keywords_refused. exact Hd. }
  rewrite Hcall. split; [exists message |]; reflexivity.
Qed.


(** X5.  Whatever the outcome, one call of the route logs exactly one line
    and sends exactly one request, to the URL built from the name: there is
    no retry and no second fetch, and no HTTP client is created or left
    open. *)
Theorem GET_schema_single_fetch :
  forall (name : string) (logger : BoundLogger)
         (http_client : Httpx.AsyncClient) (w : World),
    let w' := snd (External.GET_schema name logger http_client w) in
    requests w' = (requests w ++ [External.schema_url_of name])%list
    /\ length (log w') = S (length (log w))
    /\ clients_created w' = clients_created w
    /\ clients_open w' = clients_open w.
Proof.
  intros name logger http_client w. cbv zeta.
  rewrite GET_schema_world. unfold External.after_get_schema.
  cbn [log requests clients_created clients_open].
  repeat split. rewrite length_app. simpl. apply Nat.add_1_r.
Qed.

End SchemaOutcomes.

(** ** [fetch_data] *)

Section FetchData.

Context `{Libraries}.

(** [fetch_data], case by case on what the transport of its own client
    answers. *)
Lemma fetch_data_run (schema_url : string) (w : World) :
  External.fetch_data schema_url w
  = (match Httpx.transport httpx_AsyncClient schema_url with
     | inr r => Returned (Httpx.text r)
     | inl e =>
         if Httpx.is_RequestError e
         then Raised (HTTPException 200
                        ("URL not found" ++ LF ++ schema_url) (Some e))
         else Raised e
     end,
     {| log := log w;
        requests := (requests w ++ [schema_url])%list;
        clients_created := S (clients_created w);
        clients_open := clients_open w |}).
Proof.
  unfold External.fetch_data, Httpx.async_with, bind, try_except, Httpx.get,
    raise, ret.
  cbn [log requests clients_created clients_open].
  destruct (Httpx.transport httpx_AsyncClient schema_url) as [e | r].
  - destruct (Httpx.is_RequestError e); reflexivity.
  - reflexivity.
Qed.

(** X6.  When the remote host answers, [fetch_data] returns the text of
    the response, for any URL and any status code of the answer: an error
    page of the remote host is returned like a document. *)
Theorem fetch_data_returns_text :
  forall (schema_url : string) (w : World) (r : Httpx.Response),
    Httpx.transport httpx_AsyncClient schema_url = inr r ->
    fst (External.fetch_data schema_url w) = Returned (Httpx.text r).
Proof.
  intros schema_url w r Ht. rewrite fetch_data_run, Ht. reflexivity.
Qed.

(** X7.  However [fetch_data] ends, by returning the text, by raising its
    [HTTPException] or by letting another exception through, it has
    created one client of its own, closed it again, sent one request to the
    URL it was given and logged nothing. *)
Theorem fetch_data_client_per_call :
  forall (schema_url : string) (w : World),
    let w' := snd (External.fetch_data schema_url w) in
    clients_created w' = S (clients_created w)
    /\ clients_open w' = clients_open w
    /\ requests w' = (requests w ++ [schema_url])%list
    /\ log w' = log w.
Proof.
  intros schema_url w. cbv zeta. rewrite fetch_data_run.
  repeat split.
Qed.

(** X8.  An exception of the client that is not an [httpx.RequestError]
    is not turned into an [HTTPException]: it leaves [fetch_data] as it was
    raised, the client closed all the same. *)
Theorem fetch_data_other_exception_propagates :
  forall (schema_url : string) (w : World) (e : exn),
    Httpx.transport httpx_AsyncClient schema_url = inl e ->
    Httpx.is_RequestError e = false ->
    fst (External.fetch_data schema_url w) = Raised e
    /\ clients_open (snd (External.fetch_data schema_url w)) = clients_open w.
Proof.
  intros schema_url w e Ht He. rewrite fetch_data_run, Ht, He.
  split; reflexivity.
Qed.

(** X9.  On an answering remote host the two fetching paths agree: parsing
    and validating what [fetch_data] returns for the schema's URL ends the
    same way as [get_schema] does for the name.  They part only in how a
    transport failure is reported and in whose client is used. *)
Theorem fetch_data_then_parse_agrees_with_get_schema :
  forall (name : string) (logger : BoundLogger)
         (http_client : Httpx.AsyncClient) (w1 w2 : World)
         (r1 r2 : Httpx.Response),
    Httpx.transport httpx_AsyncClient (External.schema_url_of name) = inr r1 ->
    Httpx.transport http_client (External.schema_url_of name) = inr r2 ->
    Httpx.text r1 = Httpx.text r2 ->
    fst (bind (External.fetch_data (External.schema_url_of name))
           (fun text w => (External.schema_of_text text, w)) w1)
    = fst (External.get_schema name logger http_client w2).
Proof.
  intros name logger http_client w1 w2 r1 r2 H1 H2 Htext.
  rewrite (get_schema_fetched name logger http_client w2 H2).
  unfold bind. rewrite fetch_data_run, H1, Htext. reflexivity.
Qed.

End FetchData.

(** ** More on the configuration *)

Section SettingsMore.

Import Config.

Lemma lower_ascii_idempotent (c : ascii) :
  lower_ascii (lower_ascii c) = lower_ascii c.
Proof.
  destruct c as [[] [] [] [] [] [] [] []]; reflexivity.
Qed.

Lemma lower_idempotent (s : string) : lower (lower s) = lower s.
Proof.
  induction s as [| c rest IH]; simpl; [reflexivity |].
  rewrite lower_ascii_idempotent, IH. reflexivity.
Qed.

(** Lowering the names of the variables changes no lookup. *)
Lemma env_lookup_lower_names (key : string) (env : environ) :
  env_lookup key (map (fun kv => (lower (fst kv), snd kv)) env)
  = env_lookup key env.
Proof.
  induction env as [| [k v] rest IH]; simpl; [reflexivity |].
  rewrite IH. unfold fold_case. simpl. rewrite lower_idempotent. reflexivity.
Qed.

(** Case analysis on the four settings of [Config_init]. *)
Ltac settings_cases env :=
  unfold Config_init, setting;
  destruct (field_env env "name") as [raw_name |] eqn:Hname;
  destruct (field_env env "path_prefix") as [raw_prefix |] eqn:Hprefix;
  destruct (field_env env "profile") as [raw_profile |] eqn:Hprofile;
  [destruct (parse_Profile raw_profile) eqn:Hparse_profile | |
   destruct (parse_Profile raw_profile) eqn:Hparse_profile | |
   destruct (parse_Profile raw_profile) eqn:Hparse_profile | |
   destruct (parse_Profile raw_profile) eqn:Hparse_profile | ];
  (destruct (field_env env "log_level") as [raw_level |] eqn:Hlevel;
   [destruct (parse_LogLevel raw_level) eqn:Hparse_level |]).

(** X10.  The environment is read without regard to the case of its
    variable names: lowering every name gives the same configuration, or
    the same validation error. *)
Theorem Config_init_case_insensitive :
  forall env : environ,
    Config_init (map (fun kv => (lower (fst kv), snd kv)) env) = Config_init env.
Proof.
  intros env. unfold Config_init, setting, field_env.
  rewrite !env_lookup_lower_names. reflexivity.
Qed.

(** X11.  Variables that are not one of the four prefixed settings are
    ignored: an environment without them yields the default configuration,
    whatever else it holds. *)
Theorem Config_init_ignores_other_variables :
  forall env : environ,
    (forall k v,
        In (k, v) env ->
        ~ In (lower k) ["jeremym_fastapi_example_name";
                        "jeremym_fastapi_example_path_prefix";
                        "jeremym_fastapi_example_profile";
                        "jeremym_fastapi_example_log_level"]) ->
    Config_init env
    = inr {| name := "jeremym-fastapi-example";
             path_prefix := "/jeremym-fastapi-example";
             profile := development;
             log_level := INFO |}.
Proof.
  intros env Hother.
  assert (Hnone : forall field,
             In (lower (env_prefix ++ field))
                ["jeremym_fastapi_example_name";
                 "jeremym_fastapi_example_path_prefix";
                 "jeremym_fastapi_example_profile";
                 "jeremym_fastapi_example_log_level"] ->
             field_env env field = None).
  { intros field Hin. unfold field_env. apply env_lookup_none.
    intros k v Hkv Heq. apply (Hother k v Hkv).
    unfold fold_case in Heq. simpl in Heq. rewrite Heq. exact Hin. }
  unfold Config_init, setting.
  rewrite (Hnone "name"), (Hnone "path_prefix"), (Hnone "profile"),
    (Hnone "log_level"); simpl; auto 6.
Qed.


(** X13.  A configuration that was built holds the name and the path
    prefix exactly as the environment gave them, the empty string
    included, and the defaults where the environment is silent. *)
Theorem Config_init_string_settings :
  forall (env : environ) (c : Config),
    Config_init env = inr c ->
    name c = match field_env env "name" with
             | Some value => value
             | None => "jeremym-fastapi-example"
             end
    /\ path_prefix c = match field_env env "path_prefix" with
                       | Some value => value
                       | None => "/jeremym-fastapi-example"
                       end.
Proof.
  intros env c.
  settings_cases env; simpl; intros Hinit; inversion Hinit; subst;
    split; reflexivity.
Qed.

Lemma Config_init_name (env : environ) (c : Config) :
  Config_init env = inr c ->
  name c = match field_env env "name" with
           | Some value => value
           | None => default_name
           end.
Proof.
  settings_cases env; simpl; intros Hinit; inversion Hinit; subst; reflexivity.
Qed.

End SettingsMore.

(** ** From the environment to the index page *)

Section ConfiguredIndex.

Context `{Libraries}.

(** X14.  The name shown at the root is the one the environment gave the
    process, under any casing of the variable's name, and the default name
    when the environment gives none; the handler logs one line and sends no
    request to produce it. *)
Theorem GET_index_name_from_environment :
  forall (env : Config.environ) (config : Config.Config)
         (logger : BoundLogger) (w : World),
    Config.Config_init env = inr config ->
    fst (External.GET_index config logger w)
    = {| FastAPI.status := 200;
         FastAPI.body :=
           FastAPI.JSON
             (PyDict
                [(PyStr "metadata",
                  PyDict
                    [(PyStr "name",
                      PyStr match Config.field_env env "name" with
                            | Some value => value
                            | None => "jeremym-fastapi-example"
                            end);
                     (PyStr "version",
                      PyStr (package_version "jeremym-fastapi-example"));
                     (PyStr "description",
                      PyStr (package_summary "jeremym-fastapi-example"));
                     (PyStr "repository_url",
                      PyStr (package_source_url "jeremym-fastapi-example"));
                     (PyStr "documentation_url",
                      PyStr (package_homepage "jeremym-fastapi-example"))])]) |}
    /\ requests (snd (External.GET_index config logger w)) = requests w
    /\ length (log (snd (External.GET_index config logger w)))
       = S (length (log w)).
Proof.
  intros env config logger w Hinit.
  pose proof (Config_init_name env Hinit) as Hname.
  unfold Config.default_name in Hname. rewrite <- Hname.
  split; [reflexivity |]. split; [reflexivity |].
  unfold External.GET_index, FastAPI.serve, External.get_index, bind,
    logger_info, ret.
  cbn [snd log]. rewrite length_app. simpl. apply Nat.add_1_r.
Qed.

End ConfiguredIndex.

(** ** The further properties at concrete inputs *)

Section FurtherDeployment.

Lemma get_schema_returns_only_validated_witness :
  exists (r : Httpx.Response) (kw : list (string * pyval)),
    Httpx.transport Demo.remote (External.schema_url_of "demo") = inr r
    /\ Demo.yaml (Httpx.text r)
       = inr (PyDict (map (fun kv => (PyStr (fst kv), snd kv)) kw))
    /\ Demo.DemoSchema_init kw
       = inr {| Demo.schema_name := "demo"; Demo.schema_id := "#demo";
                Demo.schema_description := None; Demo.schema_tables := [] |}.
Proof.
  apply (@get_schema_returns_only_validated Demo.libraries "demo" Demo.logger
           Demo.remote Demo.idle).
  reflexivity.
Defined.

Lemma get_schema_other_exception_propagates_witness :
  @External.get_schema Demo.libraries "demo" Demo.logger Online.rejecting Demo.idle
  = (Raised (InvalidURL "Invalid non-printable character"),
     External.after_get_schema "demo" Demo.logger Demo.idle).
Proof.
  apply (@get_schema_other_exception_propagates Demo.libraries "demo"
           Demo.logger Online.rejecting Demo.idle);
    reflexivity.
Defined.

Lemma get_schema_not_a_string_keyed_mapping_witness :
  (exists message,
      fst (@External.get_schema Demo.libraries "unknown" Demo.logger
             Demo.remote Demo.idle)
      = Raised (TypeError message))
  /\ fst (@External.GET_schema Demo.libraries "unknown" Demo.logger
            Demo.remote Demo.idle)
     = {| FastAPI.status := 500;
          FastAPI.body := FastAPI.PlainText "Internal Server Error" |}.
Proof.
  apply (@get_schema_not_a_string_keyed_mapping Demo.libraries "unknown"
           Demo.logger Demo.remote Demo.idle
           {| Httpx.status_code := 404; Httpx.text := Demo.not_found_body |}
           (PyDict [ (PyInt 404, PyStr "Not Found") ]));
    [reflexivity | reflexivity |].
  exists (PyInt 404), (PyStr "Not Found").
  split; [left; reflexivity | intros s; discriminate].
Defined.


Lemma fetch_data_returns_text_witness :
  fst (@External.fetch_data Online.reachable (External.schema_url_of "unknown")
         Demo.idle)
  = Returned Demo.not_found_body.
Proof.
  apply (@fetch_data_returns_text Online.reachable
           (External.schema_url_of "unknown") Demo.idle
           {| Httpx.status_code := 404; Httpx.text := Demo.not_found_body |}).
  reflexivity.
Defined.

Lemma fetch_data_other_exception_propagates_witness :
  fst (@External.fetch_data Online.refused "http://example.org/x" Demo.busy)
  = Raised (InvalidURL "Invalid non-printable character")
  /\ clients_open
       (snd (@External.fetch_data Online.refused "http://example.org/x" Demo.busy))
     = clients_open Demo.busy.
Proof.
  apply (@fetch_data_other_exception_propagates Online.refused
           "http://example.org/x" Demo.busy);
    reflexivity.
Defined.

Lemma fetch_data_then_parse_agrees_with_get_schema_witness :
  fst (bind (@External.fetch_data Online.reachable (External.schema_url_of "incomplete"))
         (fun text w => (@External.schema_of_text Online.reachable text, w))
         Demo.idle)
  = fst (@External.get_schema Online.reachable "incomplete" Demo.logger
           Demo.mirror Demo.busy).
Proof.
  apply (@fetch_data_then_parse_agrees_with_get_schema Online.reachable
           "incomplete" Demo.logger Demo.mirror Demo.idle Demo.busy
           {| Httpx.status_code := 200; Httpx.text := Demo.incomplete_doc |}
           {| Httpx.status_code := 200; Httpx.text := Demo.incomplete_doc |});
    reflexivity.
Defined.

Lemma Config_init_ignores_other_variables_witness :
  Config.Config_init [("HOME", "/root"); ("JEREMYM_FASTAPI_EXAMPLE", "1")]
  = inr {| Config.name := "jeremym-fastapi-example";
           Config.path_prefix := "/jeremym-fastapi-example";
           Config.profile := Config.development;
           Config.log_level := Config.INFO |}.
Proof.
  apply (Config_init_ignores_other_variables
           [("HOME", "/root"); ("JEREMYM_FASTAPI_EXAMPLE", "1")]).
  intros k v [Hk | [Hk | []]]; inversion Hk; subst; vm_compute;
    intros [Hn | [Hn | [Hn | [Hn | []]]]]; discriminate Hn.
Defined.


Lemma Config_init_string_settings_witness :
  Config.name {| Config.name := "schema-browser"; Config.path_prefix := "";
                 Config.profile := Config.development;
                 Config.log_level := Config.INFO |}
  = match Config.field_env Online.renamed "name" with
    | Some value => value
    | None => "jeremym-fastapi-example"
    end
  /\ Config.path_prefix
       {| Config.name := "schema-browser"; Config.path_prefix := "";
          Config.profile := Config.development;
          Config.log_level := Config.INFO |}
     = match Config.field_env Online.renamed "path_prefix" with
       | Some value => value
       | None => "/jeremym-fastapi-example"
       end.
Proof.
  apply (@Config_init_string_settings Online.renamed).
  reflexivity.
Defined.

Lemma GET_index_name_from_environment_witness :
  FastAPI.body
    (fst (@External.GET_index Demo.libraries
            {| Config.name := "schema-browser"; Config.path_prefix := "";
               Config.profile := Config.development;
               Config.log_level := Config.INFO |}
            Demo.logger Demo.idle))
  = FastAPI.JSON
      (PyDict
         [(PyStr "metadata",
           PyDict
             [(PyStr "name", PyStr "schema-browser");
              (PyStr "version", PyStr "0.1.0");
              (PyStr "description", PyStr "An example service");
              (PyStr "repository_url",
               PyStr "https://github.com/lsst-dm/jeremym-fastapi-example");
              (PyStr "documentation_url",
               PyStr "https://jeremym-fastapi-example.lsst.io")])]).
Proof.
  rewrite (proj1 (@GET_index_name_from_environment Demo.libraries
                    Online.renamed
                    {| Config.name := "schema-browser"; Config.path_prefix := "";
                       Config.profile := Config.development;
                       Config.log_level := Config.INFO |}
                    Demo.logger Demo.idle eq_refl)).
  reflexivity.
Defined.

End FurtherDeployment.
